(** * cohere-chatbot-tutorial: conversation state, configuration and templates

    A shallow embedding of [src/templates.ts] and [src/chatbot.ts], and of
    the streaming command of [src/index.ts].

    Modelling conventions.
    - A JavaScript [string] is a [string] (a sequence of code units).
    - A JavaScript [number] is a rational [Q]: the code only compares
      numbers with literals and prints them, it never computes with them.
      [NaN] and the infinities are outside the model.
    - An optional property [f?: T] of an object is a [prop T]: the key is
      missing ([Absent]) or present with a value that may be [undefined]
      ([Present None]).  Object spread copies present keys, whatever their
      value.
    - [new Date()] reads a clock; every operation that stamps a message
      takes the clock reading as an argument.
    - The Cohere client is the environment: a [CohereClientV2] answers a request
      with a reply that either throws or returns.  A promise that resolves
      or rejects is an [outcome].
    - Writes to the console are not part of the modelled state. *)

From Stdlib Require Import String Ascii List Bool ZArith QArith Lia.
From stdpp Require Import base list.
Import ListNotations.

Open Scope string_scope.

(** ** JavaScript primitives used by the sources *)

Module Js.

Definition number := Q.
Definition Date := Z.

(** An optional property of an object literal. *)
Inductive prop (A : Type) : Type :=
| Absent
| Present (v : option A).
Arguments Absent {A}.
Arguments Present {A} v.

(** [o.f]: a missing key reads as [undefined]. *)
Definition get {A} (p : prop A) : option A :=
  match p with
  | Absent => None
  | Present v => v
  end.

(** [{...base, ...over}] on one key. *)
Definition spread {A} (base over : prop A) : prop A :=
  match over with
  | Absent => base
  | Present v => Present v
  end.

(** Truthiness of the three primitive types that the sources test. *)
Definition truthy_string (s : string) : bool := negb (String.eqb s "").
Definition truthy_number (n : number) : bool := negb (Qeq_bool n 0).
Definition truthy_boolean (b : bool) : bool := b.

Definition truthy {A} (t : A -> bool) (v : option A) : bool :=
  match v with
  | Some a => t a
  | None => false
  end.

(** [v || d] for an optional value [v] and a default [d]. *)
Definition or_else {A} (t : A -> bool) (v : option A) (d : A) : A :=
  match v with
  | Some a => if t a then a else d
  | None => d
  end.

(** A settled promise. *)
Inductive outcome (A : Type) : Type :=
| Resolved (a : A)
| Rejected (message : string).
Arguments Resolved {A} a.
Arguments Rejected {A} message.

(** *** [String.prototype.replace] with a string pattern *)

Fixpoint startsWith (pat s : string) : bool :=
  match pat, s with
  | EmptyString, _ => true
  | String _ _, EmptyString => false
  | String a pat', String b s' => Ascii.eqb a b && startsWith pat' s'
  end.

Fixpoint drop (n : nat) (s : string) : string :=
  match n, s with
  | O, _ => s
  | S _, EmptyString => EmptyString
  | S n', String _ s' => drop n' s'
  end.

(** The text before and after the first occurrence of [pat] in [s]. *)
Fixpoint splitFirst (pat s : string) : option (string * string) :=
  if startsWith pat s then Some (EmptyString, drop (String.length pat) s)
  else
    match s with
    | EmptyString => None
    | String c s' =>
        match splitFirst pat s' with
        | Some (before, after) => Some (String c before, after)
        | None => None
        end
    end.

Definition includes (s pat : string) : bool :=
  match splitFirst pat s with
  | Some _ => true
  | None => false
  end.

(** GetSubstitution for a string pattern (no captures): in the replacement
    text [$$] is a dollar sign, [$&] the matched text, [$`] the text before
    the match and [$'] the text after it; everything else is literal. *)
Fixpoint getSubstitution (matched before after repl : string) : string :=
  match repl with
  | EmptyString => EmptyString
  | String c rest =>
      if Ascii.eqb c "$" then
        match rest with
        | EmptyString => String c EmptyString
        | String d rest' =>
            if Ascii.eqb d "$" then
              String "$" (getSubstitution matched before after rest')
            else if Ascii.eqb d "&" then
              matched ++ getSubstitution matched before after rest'
            else if Ascii.eqb d "`" then
              before ++ getSubstitution matched before after rest'
            else if Ascii.eqb d "'" then
              after ++ getSubstitution matched before after rest'
            else String c (getSubstitution matched before after rest)
        end
      else String c (getSubstitution matched before after rest)
  end.

(** [s.replace(pat, repl)]: only the first occurrence is replaced. *)
Definition replace (s pat repl : string) : string :=
  match splitFirst pat s with
  | None => s
  | Some (before, after) =>
      before ++ getSubstitution pat before after repl ++ after
  end.

(** *** Number to string, for template literals *)

Definition digit (n : Z) : ascii :=
  ascii_of_nat (48 + Z.to_nat n).

Fixpoint natural_digits (fuel : nat) (n : Z) (acc : string) : string :=
  match fuel with
  | O => acc
  | S fuel' =>
      let acc' := String (digit (n mod 10)) acc in
      if (n / 10 =? 0)%Z then acc' else natural_digits fuel' (n / 10) acc'
  end.

Fixpoint fraction_digits (fuel : nat) (num den : Z) : string :=
  match fuel with
  | O => EmptyString
  | S fuel' =>
      if (num =? 0)%Z then EmptyString
      else String (digit (10 * num / den))
                  (fraction_digits fuel' ((10 * num) mod den) den)
  end.

(** Decimal notation of a rational whose expansion ends within 17
    fractional digits, which is how a short decimal literal prints. *)
Definition numberToString (q : number) : string :=
  let n := Qnum q in
  let d := Zpos (Qden q) in
  let a := Z.abs n in
  let whole := natural_digits (S (Z.to_nat (Z.log2 (a / d + 1)))) (a / d) EmptyString in
  let frac := fraction_digits 17 (a mod d) d in
  (if (n <? 0)%Z then "-" else "") ++ whole ++
  (if String.eqb frac "" then "" else "." ++ frac).

End Js.

(** ** templates.ts *)

Module Templates.

Record PromptTemplate : Type := {
  name : string;
  description : string;
  template : string
}.

Definition promptTemplates : list PromptTemplate := [
  {| name := "general";
     description := "General conversation and questions";
     template := "You are a helpful and friendly AI assistant. Please answer the user's question clearly and helpfully.

User question: {userInput}

Please provide a clear and helpful response:" |};
  {| name := "code";
     description := "Programming and coding help";
     template := "You are an expert programmer and coding mentor. Help the user with their programming question or problem.

Programming question: {userInput}

Please provide:
1. A clear explanation
2. Code examples if needed
3. Best practices or tips

Response:" |};
  {| name := "creative";
     description := "Creative writing and storytelling";
     template := "You are a creative writing assistant. Help the user with creative tasks like stories, poems, or creative ideas.

Creative request: {userInput}

Please be imaginative, engaging, and help bring their creative vision to life:" |};
  {| name := "qa";
     description := "Structured question and answer";
     template := "You are a knowledgeable expert. Answer the user's question with accurate, well-structured information.

Question: {userInput}

Please provide:
- A direct answer
- Supporting details
- Relevant context if helpful

Answer:" |}
].

(** The placeholder that [applyTemplate] looks for. *)
Definition marker : string := "{userInput}".

Definition applyTemplate (t : PromptTemplate) (userInput : string) : string :=
  Js.replace (template t) marker userInput.

Definition getTemplate (n : string) : option PromptTemplate :=
  List.find (fun t => String.eqb (name t) n) promptTemplates.

End Templates.

(** ** chatbot.ts *)

Module Chatbot.
Import Js.

Inductive Role : Type := user | assistant | system.

Definition Role_eqb (a b : Role) : bool :=
  match a, b with
  | user, user | assistant, assistant | system, system => true
  | _, _ => false
  end.

Record ChatMessage : Type := {
  role : Role;
  content : string;
  timestamp : option Date
}.

Record ChatbotConfig : Type := {
  model : prop string;
  temperature : prop number;
  maxTokens : prop number;
  preamble : prop string;
  enableStreaming : prop bool;
  activeTemplate : prop string
}.

(** The object literal [{}]. *)
Definition emptyConfig : ChatbotConfig :=
  {| model := Absent; temperature := Absent; maxTokens := Absent;
     preamble := Absent; enableStreaming := Absent; activeTemplate := Absent |}.

(** [{...base, ...over}]. *)
Definition spreadConfig (base over : ChatbotConfig) : ChatbotConfig :=
  {| model := spread (model base) (model over);
     temperature := spread (temperature base) (temperature over);
     maxTokens := spread (maxTokens base) (maxTokens over);
     preamble := spread (preamble base) (preamble over);
     enableStreaming := spread (enableStreaming base) (enableStreaming over);
     activeTemplate := spread (activeTemplate base) (activeTemplate over) |}.

Inductive ChatbotPreset : Type := precise | balanced | creative.

Definition CHATBOT_PRESETS (p : ChatbotPreset) : ChatbotConfig :=
  match p with
  | precise =>
      {| model := Present (Some "command-r-plus");
         temperature := Present (Some 0.0%Q);
         maxTokens := Present (Some 500%Q);
         preamble := Present (Some
           "You are a helpful and precise assistant. Provide accurate and factual responses.");
         enableStreaming := Present (Some false);
         activeTemplate := Absent |}
  | balanced =>
      {| model := Present (Some "command-r-plus");
         temperature := Present (Some 0.3%Q);
         maxTokens := Present (Some 500%Q);
         preamble := Present (Some
           "You are a helpful assistant. Be informative and conversational.");
         enableStreaming := Present (Some false);
         activeTemplate := Absent |}
  | creative =>
      {| model := Present (Some "command-r-plus");
         temperature := Present (Some 1.0%Q);
         maxTokens := Present (Some 500%Q);
         preamble := Present (Some
           "You are a creative and imaginative assistant. Feel free to be expressive and think outside the box.");
         enableStreaming := Present (Some false);
         activeTemplate := Absent |}
  end.

(** The fields of the class; the client is the environment of a turn. *)
Record CohereChatbot : Type := {
  config : ChatbotConfig;
  conversationHistory : list ChatMessage
}.

(** The literal that precedes [...config] in the constructor. *)
Definition defaults : ChatbotConfig :=
  {| model := Present (Some "command-r-plus");
     temperature := Present (Some 0.3%Q);
     maxTokens := Present (Some 500%Q);
     preamble := Absent;
     enableStreaming := Present (Some false);
     activeTemplate := Absent |}.

Definition systemMessage (text : string) (now : Date) : ChatMessage :=
  {| role := system; content := text; timestamp := Some now |}.

(** The history seeded from [this.config.preamble]: one system message
    when the preamble is a non-empty string, nothing otherwise. *)
Definition seed (c : ChatbotConfig) (now : Date) : list ChatMessage :=
  match get (preamble c) with
  | Some p => if truthy_string p then [systemMessage p now] else []
  | None => []
  end.

Definition constructor (cfg : ChatbotConfig) (now : Date) : CohereChatbot :=
  let c := spreadConfig defaults cfg in
  {| config := c; conversationHistory := [] ++ seed c now |}.

Definition fromPreset (p : ChatbotPreset) (now : Date) : CohereChatbot :=
  constructor (CHATBOT_PRESETS p) now.

Definition getPresetInfo (b : CohereChatbot) : string :=
  let temp := or_else truthy_number (get (temperature (config b))) 0.3%Q in
  if Qeq_bool temp 0.0 then "precise (focused on accuracy)"
  else if Qle_bool temp 0.3 then "balanced (general conversation)"
  else if Qle_bool 1.0 temp then "creative (imaginative responses)"
  else "custom (temperature: " ++ numberToString temp ++ ")".

(** *** The Cohere client *)

Record ApiMessage : Type := {
  api_role : Role;
  api_content : string
}.

Record ChatRequest : Type := {
  req_model : option string;
  req_messages : list ApiMessage;
  req_temperature : option number;
  req_maxTokens : option number
}.

Record ContentItem : Type := { text : option string }.
Record AssistantMessage : Type := { items : option (list ContentItem) }.
Record ChatResponse : Type := { message : option AssistantMessage }.

Record DeltaContent : Type := { delta_text : option string }.
Record DeltaMessage : Type := { delta_content : option DeltaContent }.
Record Delta : Type := { delta_message : option DeltaMessage }.
Record StreamChunk : Type := { type : string; delta : option Delta }.

(** What [await client.chat(request)] does. *)
Inductive ChatReply : Type :=
| ChatThrows (cause : string)
| ChatReturns (response : ChatResponse).

(** What [client.chatStream(request)] and the iteration over the stream do:
    the call throws, or the stream delivers [chunks] in order and then
    either ends ([failure = None]) or throws. *)
Inductive StreamReply : Type :=
| StreamThrows (cause : string)
| StreamOpens (chunks : list StreamChunk) (failure : option string).

Record CohereClientV2 : Type := {
  chat : ChatRequest -> ChatReply;
  chatStream : ChatRequest -> StreamReply
}.

(** The environment of one [sendMessage]: the service and the two clock
    readings, for the user message and for the assistant message. *)
Record Turn : Type := {
  client : CohereClientV2;
  sentAt : Date;
  repliedAt : Date
}.

Definition push (b : CohereChatbot) (m : ChatMessage) : CohereChatbot :=
  {| config := config b; conversationHistory := conversationHistory b ++ [m] |}.

Definition formatMessagesForAPI (b : CohereChatbot) : list ApiMessage :=
  List.map (fun msg => {| api_role := role msg; api_content := content msg |})
    (List.filter (fun msg => negb (Role_eqb (role msg) system))
       (conversationHistory b)).

Definition request (b : CohereChatbot) : ChatRequest :=
  {| req_model := get (model (config b));
     req_messages := formatMessagesForAPI b;
     req_temperature := get (temperature (config b));
     req_maxTokens := get (maxTokens (config b)) |}.

(** [response.message?.content?.[0]?.text] *)
Definition firstText (r : ChatResponse) : option string :=
  match message r with
  | Some m =>
      match items m with
      | Some (i :: _) => text i
      | _ => None
      end
  | None => None
  end.

Definition sendRegularMessage (cl : CohereClientV2) (now : Date) (b : CohereChatbot)
  : outcome string * CohereChatbot :=
  match chat cl (request b) with
  | ChatThrows cause => (Rejected cause, b)
  | ChatReturns response =>
      let assistantMessage :=
        or_else truthy_string (firstText response) "No response received" in
      (Resolved assistantMessage,
       push b {| role := assistant; content := assistantMessage; timestamp := Some now |})
  end.

(** [chunk.delta?.message?.content?.text || ""] *)
Definition deltaText (chunk : StreamChunk) : string :=
  let t :=
    match delta chunk with
    | Some d =>
        match delta_message d with
        | Some m =>
            match delta_content m with
            | Some c => delta_text c
            | None => None
            end
        | None => None
        end
    | None => None
    end in
  or_else truthy_string t "".

(** One iteration of the [for await] loop. *)
Definition accumulate (fullResponse : string) (chunk : StreamChunk) : string :=
  if String.eqb (type chunk) "content-delta"
  then fullResponse ++ deltaText chunk
  else fullResponse.

Definition sendStreamingMessage (cl : CohereClientV2) (now : Date) (b : CohereChatbot)
  : outcome string * CohereChatbot :=
  match chatStream cl (request b) with
  | StreamThrows cause => (Rejected cause, b)
  | StreamOpens chunks failure =>
      let fullResponse := fold_left accumulate chunks "" in
      match failure with
      | Some cause => (Rejected cause, b)
      | None =>
          (Resolved fullResponse,
           push b {| role := assistant; content := fullResponse; timestamp := Some now |})
      end
  end.

Definition sendMessage (t : Turn) (message : string) (b : CohereChatbot)
  : outcome string * CohereChatbot :=
  let userMessage := {| role := user; content := message; timestamp := Some (sentAt t) |} in
  let b1 := push b userMessage in
  let (r, b2) :=
    if truthy truthy_boolean (get (enableStreaming (config b1)))
    then sendStreamingMessage (client t) (repliedAt t) b1
    else sendRegularMessage (client t) (repliedAt t) b1 in
  match r with
  | Resolved reply => (Resolved reply, b2)
  | Rejected _ => (Rejected "Failed to get response from Cohere API", b2)
  end.

Definition getConversationHistory (b : CohereChatbot) : list ChatMessage :=
  conversationHistory b.

Definition clearHistory (now : Date) (b : CohereChatbot) : CohereChatbot :=
  {| config := config b; conversationHistory := [] ++ seed (config b) now |}.

Definition setPreamble (p : string) (now : Date) (b : CohereChatbot) : CohereChatbot :=
  let c := config b in
  {| config :=
       {| model := model c; temperature := temperature c; maxTokens := maxTokens c;
          preamble := Present (Some p);
          enableStreaming := enableStreaming c; activeTemplate := activeTemplate c |};
     conversationHistory :=
       systemMessage p now ::
       List.filter (fun msg => negb (Role_eqb (role msg) system)) (conversationHistory b) |}.

Definition withActiveTemplate (v : option string) (b : CohereChatbot) : CohereChatbot :=
  let c := config b in
  {| config :=
       {| model := model c; temperature := temperature c; maxTokens := maxTokens c;
          preamble := preamble c; enableStreaming := enableStreaming c;
          activeTemplate := Present v |};
     conversationHistory := conversationHistory b |}.

Definition setTemplate (templateName : string) (b : CohereChatbot) : bool * CohereChatbot :=
  match Templates.getTemplate templateName with
  | Some _ => (true, withActiveTemplate (Some templateName) b)
  | None => (false, b)
  end.

Definition getActiveTemplate (b : CohereChatbot) : option string :=
  get (activeTemplate (config b)).

Definition sendTemplatedMessage (t : Turn) (userInput : string) (b : CohereChatbot)
  : outcome string * CohereChatbot :=
  let finalMessage :=
    match get (activeTemplate (config b)) with
    | Some n =>
        if truthy_string n then
          match Templates.getTemplate n with
          | Some tpl => Templates.applyTemplate tpl userInput
          | None => userInput
          end
        else userInput
    | None => userInput
    end in
  sendMessage t finalMessage b.

Definition clearTemplate (b : CohereChatbot) : CohereChatbot :=
  withActiveTemplate None b.

Definition getConfig (b : CohereChatbot) : ChatbotConfig :=
  spreadConfig emptyConfig (config b).

Definition updateConfig (newConfig : ChatbotConfig) (b : CohereChatbot) : CohereChatbot :=
  {| config := spreadConfig (config b) newConfig;
     conversationHistory := conversationHistory b |}.

End Chatbot.

(** ** Vocabulary of the properties *)

Module Session.
Import Js Chatbot.

(** The keys of [ChatbotConfig], with the type of their values. *)
Inductive Field : Type :=
| Fmodel | Ftemperature | FmaxTokens | Fpreamble | FenableStreaming | FactiveTemplate.

Definition FieldType (f : Field) : Type :=
  match f with
  | Fmodel | Fpreamble | FactiveTemplate => string
  | Ftemperature | FmaxTokens => number
  | FenableStreaming => bool
  end.

Definition field (f : Field) (c : ChatbotConfig) : prop (FieldType f) :=
  match f with
  | Fmodel => model c
  | Ftemperature => temperature c
  | FmaxTokens => maxTokens c
  | Fpreamble => preamble c
  | FenableStreaming => enableStreaming c
  | FactiveTemplate => activeTemplate c
  end.

(** The states that the public operations of the class can produce, for
    any behaviour of the service and of the clock. *)
Inductive reachable : CohereChatbot -> Prop :=
| reach_constructor cfg now :
    reachable (constructor cfg now)
| reach_sendMessage t message b :
    reachable b -> reachable (snd (sendMessage t message b))
| reach_sendTemplatedMessage t userInput b :
    reachable b -> reachable (snd (sendTemplatedMessage t userInput b))
| reach_setPreamble p now b :
    reachable b -> reachable (setPreamble p now b)
| reach_clearHistory now b :
    reachable b -> reachable (clearHistory now b)
| reach_updateConfig newConfig b :
    reachable b -> reachable (updateConfig newConfig b)
| reach_setTemplate templateName b :
    reachable b -> reachable (snd (setTemplate templateName b))
| reach_clearTemplate b :
    reachable b -> reachable (clearTemplate b).

Definition isSystem (m : ChatMessage) : bool := Role_eqb (role m) system.

Fixpoint count (p : ChatMessage -> bool) (h : list ChatMessage) : nat :=
  match h with
  | [] => 0
  | m :: h' => (if p m then 1 else 0) + count p h'
  end.

(** Every message after the first one is a user or an assistant message. *)
Definition systemOnlyFirst (h : list ChatMessage) : Prop :=
  Forall (fun m => isSystem m = false) (tl h).

(** A message as the service sees it. *)
Definition payload (m : ChatMessage) : ApiMessage :=
  {| api_role := role m; api_content := content m |}.

(** The user message that [sendMessage] appends. *)
Definition userMessage (t : Turn) (message : string) : ChatMessage :=
  {| role := user; content := message; timestamp := Some (sentAt t) |}.

(** The assistant message that a completed turn appends. *)
Definition assistantMessage (t : Turn) (reply : string) : ChatMessage :=
  {| role := assistant; content := reply; timestamp := Some (repliedAt t) |}.

(** The dispatch of a turn fails: the call of the service throws, or the
    stream throws after some of its chunks.  [b] is the state after the
    user message has been appended. *)
Definition dispatchFails (cl : CohereClientV2) (b : CohereChatbot) : bool :=
  if truthy truthy_boolean (get (enableStreaming (config b))) then
    match chatStream cl (request b) with
    | StreamThrows _ => true
    | StreamOpens _ (Some _) => true
    | StreamOpens _ None => false
    end
  else
    match chat cl (request b) with
    | ChatThrows _ => true
    | ChatReturns _ => false
    end.

(** The texts of the content-delta chunks, in arrival order. *)
Definition contentDeltaTexts (chunks : list StreamChunk) : list string :=
  List.map deltaText
    (List.filter (fun c => String.eqb (type c) "content-delta") chunks).

(** A chunk of type content-delta that carries [s]. *)
Definition contentDelta (s : string) : StreamChunk :=
  {| type := "content-delta";
     delta := Some {| delta_message :=
       Some {| delta_content := Some {| delta_text := Some s |} |} |} |}.

(** A service whose stream delivers [chunks] and ends, and whose
    single-shot call returns [reply]. *)
Definition serviceReturning (reply : string) (chunks : list StreamChunk) : CohereClientV2 :=
  {| chat := fun _ =>
       ChatReturns {| message := Some {| items := Some [ {| text := Some reply |} ] |} |};
     chatStream := fun _ => StreamOpens chunks None |}.

(** A service that is down. *)
Definition serviceDown : CohereClientV2 :=
  {| chat := fun _ => ChatThrows "ECONNREFUSED";
     chatStream := fun _ => StreamThrows "ECONNREFUSED" |}.

(** The message and the clock readings erased from a history. *)
Definition unstamped (h : list ChatMessage) : list (Role * string) :=
  List.map (fun m => (role m, content m)) h.

(** The request that a turn on [message] hands to the service: the
    configured model, temperature and length, and the user and assistant
    messages of the history followed by the new user message. *)
Definition turnRequest (b : CohereChatbot) (message : string) : ChatRequest :=
  {| req_model := get (model (config b));
     req_messages :=
       formatMessagesForAPI b ++ [ {| api_role := user; api_content := message |} ];
     req_temperature := get (temperature (config b));
     req_maxTokens := get (maxTokens (config b)) |}.

(** The four keys that the constructor always writes are in the object. *)
Definition defaultKeysPresent (c : ChatbotConfig) : Prop :=
  model c <> Absent /\ temperature c <> Absent /\
  maxTokens c <> Absent /\ enableStreaming c <> Absent.

(** The active template, when there is one, is in the registry. *)
Definition activeRegistered (b : CohereChatbot) : Prop :=
  match getActiveTemplate b with
  | Some n => exists tpl, Templates.getTemplate n = Some tpl
  | None => True
  end.

(** A text with every dollar sign doubled. *)
Fixpoint escapeDollars (s : string) : string :=
  match s with
  | EmptyString => EmptyString
  | String c rest =>
      if Ascii.eqb c "$" then String "$" (String "$" (escapeDollars rest))
      else String c (escapeDollars rest)
  end.

End Session.

(** ** index.ts *)

Module Cli.
Import Js Chatbot.

(** The "streaming" command of the interactive loop: read the flag from a
    copy of the configuration, negate it, write it back.  The answer is the
    new flag, which the loop prints. *)
Definition toggleStreaming (b : CohereChatbot) : bool * CohereChatbot :=
  let config := getConfig b in
  let newStreamingState := negb (truthy truthy_boolean (get (enableStreaming config))) in
  (newStreamingState,
   updateConfig
     {| model := Absent; temperature := Absent; maxTokens := Absent;
        preamble := Absent; enableStreaming := Present (Some newStreamingState);
        activeTemplate := Absent |} b).

End Cli.

Import Js Templates Chatbot Session Cli.

(** * Configuration *)

(** C10: a chatbot constructed from the empty configuration object has
    model "command-r-plus", temperature 0.3, maxTokens 500, streaming
    disabled, no preamble, no active template and an empty history. *)
Theorem constructor_empty_config (now : Date) :
  let b := constructor emptyConfig now in
  get (model (config b)) = Some "command-r-plus" /\
  get (temperature (config b)) = Some 0.3%Q /\
  get (maxTokens (config b)) = Some 500%Q /\
  get (enableStreaming (config b)) = Some false /\
  get (preamble (config b)) = None /\
  get (activeTemplate (config b)) = None /\
  conversationHistory b = [].
Proof. cbv zeta. repeat split; reflexivity. Qed.

Lemma spreadConfig_field (f : Field) (base over : ChatbotConfig) :
  field f (spreadConfig base over) = spread (field f base) (field f over).
Proof. destruct f; reflexivity. Qed.

(** C3: the merge of the constructor (defaults overridden by the caller's
    object) and of updateConfig (current configuration overridden by the
    new object) is field-wise: a key present in the override takes the
    override's value, a key missing from it keeps the base's value. *)
Theorem merge_fieldwise_override (f : Field) (over : ChatbotConfig) :
  (forall b : CohereChatbot,
     field f (config (updateConfig over b)) =
     match field f over with
     | Present v => Present v
     | Absent => field f (config b)
     end) /\
  (forall now : Date,
     field f (config (constructor over now)) =
     match field f over with
     | Present v => Present v
     | Absent => field f defaults
     end).
Proof.
  split; intros; cbn [updateConfig constructor config];
    rewrite spreadConfig_field; reflexivity.
Qed.

(** What a reader of the merged object sees: the override's value when the
    override has the key, else the base's. *)
Lemma merge_fieldwise_read (f : Field) (over : ChatbotConfig) (b : CohereChatbot) :
  get (field f (config (updateConfig over b))) =
  match field f over with
  | Present v => v
  | Absent => get (field f (config b))
  end.
Proof.
  cbn [updateConfig config]. rewrite spreadConfig_field.
  destruct (field f over); reflexivity.
Qed.

(** * getPresetInfo *)

Open Scope Q_scope.

Lemma default_temperature_nonzero : Qeq_bool 0.3 0.0 = false.
Proof. reflexivity. Qed.

(** The temperature that getPresetInfo classifies is never zero: a zero
    temperature is falsy and is replaced by 0.3. *)
Lemma classified_temperature_nonzero (v : option number) :
  Qeq_bool (or_else truthy_number v 0.3) 0.0 = false.
Proof.
  destruct v as [t|]; cbn [or_else]; [|reflexivity].
  unfold truthy_number.
  destruct (Qeq_bool t 0) eqn:E; cbn [negb]; [reflexivity|].
  destruct (Qeq_bool t 0.0) eqn:E'; [|reflexivity].
  apply Qeq_bool_iff in E'.
  assert (Qeq_bool t 0 = true) as H by (apply Qeq_bool_iff; rewrite E'; reflexivity).
  congruence.
Qed.

(** C1: on the precise preset, whose temperature is 0.0, getPresetInfo
    answers "balanced (general conversation)"; the banding claimed for a
    zero temperature, "precise", is not what the code computes. *)
Theorem getPresetInfo_precise_preset (now : Date) :
  get (temperature (config (fromPreset precise now))) = Some 0.0%Q /\
  getPresetInfo (fromPreset precise now) = "balanced (general conversation)".
Proof. split; reflexivity. Qed.

(** No state at all is classified as precise. *)
Lemma getPresetInfo_never_precise (b : CohereChatbot) :
  getPresetInfo b <> "precise (focused on accuracy)".
Proof.
  unfold getPresetInfo. cbv zeta.
  rewrite classified_temperature_nonzero.
  destruct (Qle_bool _ 0.3); [discriminate|].
  destruct (Qle_bool 1.0 _); [discriminate|].
  cbn [String.append]. discriminate.
Qed.

Section Banding.

Variable b : CohereChatbot.
Variable t : number.
Hypothesis temperature_is_t : get (temperature (config b)) = Some t.

Lemma getPresetInfo_zero :
  t == 0 -> getPresetInfo b = "balanced (general conversation)".
Proof.
  intros Hz. unfold getPresetInfo. cbv zeta. rewrite temperature_is_t.
  cbn [or_else]. unfold truthy_number.
  apply Qeq_bool_iff in Hz. rewrite Hz. reflexivity.
Qed.

Lemma classified_is_t : ~ t == 0 -> or_else truthy_number (Some t) 0.3 = t.
Proof.
  intros Hnz. cbn [or_else]. unfold truthy_number.
  destruct (Qeq_bool t 0) eqn:E; [|reflexivity].
  apply Qeq_bool_iff in E. contradiction.
Qed.

Lemma getPresetInfo_balanced :
  ~ t == 0 -> t <= 0.3 -> getPresetInfo b = "balanced (general conversation)".
Proof.
  intros Hnz Hle. unfold getPresetInfo. cbv zeta.
  rewrite classified_temperature_nonzero, temperature_is_t, (classified_is_t Hnz).
  apply Qle_bool_iff in Hle. rewrite Hle. reflexivity.
Qed.

Lemma getPresetInfo_creative :
  1.0 <= t -> getPresetInfo b = "creative (imaginative responses)".
Proof.
  intros Hge.
  assert (~ t == 0) as Hnz.
  { intros E. rewrite E in Hge. apply Qle_bool_iff in Hge. discriminate. }
  unfold getPresetInfo. cbv zeta.
  rewrite classified_temperature_nonzero, temperature_is_t, (classified_is_t Hnz).
  destruct (Qle_bool t 0.3) eqn:E.
  - apply Qle_bool_iff in E.
    assert (1.0 <= 0.3) as Habs by (eapply Qle_trans; eassumption).
    apply Qle_bool_iff in Habs. discriminate.
  - apply Qle_bool_iff in Hge. rewrite Hge. reflexivity.
Qed.

Lemma getPresetInfo_custom :
  0.3 < t -> t < 1.0 ->
  getPresetInfo b = "custom (temperature: " ++ numberToString t ++ ")".
Proof.
  intros Hlo Hhi.
  assert (~ t == 0) as Hnz.
  { intros E. rewrite E in Hlo. apply Qlt_not_le in Hlo. apply Hlo.
    apply Qle_bool_iff. reflexivity. }
  unfold getPresetInfo. cbv zeta.
  rewrite classified_temperature_nonzero, temperature_is_t, (classified_is_t Hnz).
  destruct (Qle_bool t 0.3) eqn:E.
  { apply Qle_bool_iff in E. apply Qlt_not_le in Hlo. contradiction. }
  destruct (Qle_bool 1.0 t) eqn:E'.
  { apply Qle_bool_iff in E'. apply Qlt_not_le in Hhi. contradiction. }
  reflexivity.
Qed.

End Banding.

Example getPresetInfo_presets (now : Date) :
  getPresetInfo (fromPreset balanced now) = "balanced (general conversation)" /\
  getPresetInfo (fromPreset creative now) = "creative (imaginative responses)".
Proof. split; reflexivity. Qed.

Example getPresetInfo_six_tenths (now : Date) :
  getPresetInfo
    (updateConfig
       {| model := Absent; temperature := Present (Some 0.6%Q); maxTokens := Absent;
          preamble := Absent; enableStreaming := Absent; activeTemplate := Absent |}
       (constructor emptyConfig now))
  = "custom (temperature: 0.6)".
Proof. reflexivity. Qed.

Close Scope Q_scope.

(** * Templates *)

Lemma startsWith_prefix (pat rest : string) : startsWith pat (pat ++ rest) = true.
Proof.
  induction pat as [|c pat IH]; [reflexivity|].
  cbn. now rewrite Ascii.eqb_refl, IH.
Qed.

Lemma startsWith_split (pat s : string) :
  startsWith pat s = true -> s = pat ++ drop (String.length pat) s.
Proof.
  revert s. induction pat as [|c pat IH]; intros s H; [reflexivity|].
  destruct s as [|d s]; [discriminate|].
  cbn in H. apply andb_true_iff in H as [Hc Hs].
  apply Ascii.eqb_eq in Hc. subst d. cbn. f_equal. now apply IH.
Qed.

(** splitFirst cuts the text around an occurrence of the pattern ... *)
Lemma splitFirst_sound (pat s before after : string) :
  splitFirst pat s = Some (before, after) -> s = before ++ pat ++ after.
Proof.
  revert before. induction s as [|c s IH]; intros before H.
  - cbn in H. destruct (startsWith pat "") eqn:E; [|discriminate].
    injection H as <- <-. now apply startsWith_split.
  - cbn [splitFirst] in H. destruct (startsWith pat (String c s)) eqn:E.
    + injection H as <- <-. now apply startsWith_split.
    + destruct (splitFirst pat s) as [[b0 a0]|]; [|discriminate].
      injection H as <- <-. cbn. f_equal. now apply IH.
Qed.

(** ... and that occurrence is the leftmost one. *)
Lemma splitFirst_leftmost (pat s before after before' after' : string) :
  splitFirst pat s = Some (before, after) ->
  s = before' ++ pat ++ after' ->
  String.length before <= String.length before'.
Proof.
  revert before before'. induction s as [|c s IH]; intros before before' H Hs.
  - cbn in H. destruct (startsWith pat ""); [|discriminate].
    injection H as <- <-. cbn. lia.
  - cbn [splitFirst] in H. destruct (startsWith pat (String c s)) eqn:E.
    + injection H as <- <-. cbn. lia.
    + destruct (splitFirst pat s) as [[b0 a0]|] eqn:E0; [|discriminate].
      injection H as <- <-.
      destruct before' as [|c' before'].
      * cbn in Hs. rewrite Hs, startsWith_prefix in E. discriminate.
      * cbn in Hs. injection Hs as -> Hs. cbn.
        specialize (IH b0 before' eq_refl Hs). lia.
Qed.

Lemma splitFirst_none (pat s : string) :
  splitFirst pat s = None -> forall before after, s <> before ++ pat ++ after.
Proof.
  induction s as [|c s IH]; intros H before after Hs.
  - cbn in H. rewrite Hs in H.
    destruct before; cbn in *.
    + rewrite startsWith_prefix in H. discriminate.
    + discriminate.
  - cbn [splitFirst] in H. destruct (startsWith pat (String c s)) eqn:E; [discriminate|].
    destruct (splitFirst pat s) as [[b0 a0]|] eqn:E0; [discriminate|].
    destruct before as [|c' before].
    + cbn in Hs. rewrite Hs, startsWith_prefix in E. discriminate.
    + cbn in Hs. injection Hs as -> Hs. now apply (IH eq_refl before after).
Qed.

(** A replacement text without a dollar sign is inserted as it is. *)
Lemma getSubstitution_plain (matched before after repl : string) :
  includes repl "$" = false -> getSubstitution matched before after repl = repl.
Proof.
  induction repl as [|c repl IH]; intros H; [reflexivity|].
  unfold includes in H. cbn [splitFirst startsWith] in H.
  rewrite andb_true_r in H.
  destruct (Ascii.eqb "$" c) eqn:E; [discriminate|].
  rewrite Ascii.eqb_sym in E.
  cbn [getSubstitution]. rewrite E. f_equal. apply IH.
  unfold includes. destruct (splitFirst "$" repl) as [[b0 a0]|]; [discriminate|reflexivity].
Qed.

(** The marker is absent: the body is returned unchanged, the input is not
    inserted. *)
Lemma applyTemplate_marker_absent (t : PromptTemplate) (userInput : string) :
  includes (template t) marker = false -> applyTemplate t userInput = template t.
Proof.
  unfold includes, applyTemplate, replace.
  destruct (splitFirst marker (template t)) as [[b0 a0]|]; [discriminate|reflexivity].
Qed.

(** The marker is present and the input has no dollar sign: the leftmost
    marker, and only it, is replaced by the input as it is. *)
Lemma applyTemplate_plain_input (t : PromptTemplate) (userInput before after : string) :
  splitFirst marker (template t) = Some (before, after) ->
  includes userInput "$" = false ->
  template t = before ++ marker ++ after /\
  applyTemplate t userInput = before ++ userInput ++ after.
Proof.
  intros Hs Hd. split; [now apply splitFirst_sound|].
  unfold applyTemplate, replace. rewrite Hs.
  now rewrite getSubstitution_plain.
Qed.

(** Scenario B of the specification. *)
Example applyTemplate_code_sort_an_array :
  exists t, getTemplate "code" = Some t /\
    includes (applyTemplate t "sort an array") "sort an array" = true /\
    includes (applyTemplate t "sort an array") marker = false.
Proof. eexists. split; [reflexivity|]. split; vm_compute; reflexivity. Qed.

(** C8: applyTemplate does not insert every user input verbatim.  On the
    registered "code" template, the input "echo $$" is inserted as
    "echo $", so that the result does not contain the input, and the input
    "$&" is replaced by the marker itself, so that the result still
    contains the marker. *)
Theorem applyTemplate_dollar_input :
  exists t, getTemplate "code" = Some t /\
    includes (template t) marker = true /\
    applyTemplate t "echo $$" = applyTemplate t "echo $" /\
    includes (applyTemplate t "echo $$") "echo $$" = false /\
    applyTemplate t "$&" = template t /\
    includes (applyTemplate t "$&") marker = true.
Proof. eexists. split; [reflexivity|]. repeat split; vm_compute; reflexivity. Qed.

(** * Conversation state *)

Lemma systemOnlyFirst_seed (c : ChatbotConfig) (now : Date) :
  systemOnlyFirst ([] ++ seed c now).
Proof.
  unfold systemOnlyFirst, seed.
  destruct (get (preamble c)) as [p|]; [destruct (truthy_string p)|]; constructor.
Qed.

Lemma systemOnlyFirst_push (h : list ChatMessage) (m : ChatMessage) :
  systemOnlyFirst h -> isSystem m = false -> systemOnlyFirst (h ++ [m]).
Proof.
  unfold systemOnlyFirst. intros Hh Hm.
  destruct h as [|m0 h]; cbn in *; [constructor|].
  apply Forall_app. split; [assumption|]. constructor; [assumption|constructor].
Qed.

Lemma filter_drops_system (h : list ChatMessage) :
  Forall (fun m => isSystem m = false)
    (List.filter (fun msg => negb (Role_eqb (role msg) system)) h).
Proof.
  induction h as [|m h IH]; cbn; [constructor|].
  destruct (Role_eqb (role m) system) eqn:E; cbn; [assumption|].
  constructor; assumption.
Qed.

Lemma filter_keeps_nonsystem (h : list ChatMessage) :
  Forall (fun m => isSystem m = false) h ->
  List.filter (fun msg => negb (Role_eqb (role msg) system)) h = h.
Proof.
  induction 1 as [|m h Hm _ IH]; cbn; [reflexivity|].
  unfold isSystem in Hm. rewrite Hm. cbn. now rewrite IH.
Qed.

(** The paths through sendMessage: streaming or not, and for each what
    the service does. *)
Ltac turn_cases t message b :=
  unfold sendMessage; cbv zeta; fold (userMessage t message);
  set (b1 := push b (userMessage t message));
  destruct (truthy truthy_boolean (get (enableStreaming (config b1))));
  [ unfold sendStreamingMessage;
    destruct (chatStream (client t) (request b1)) as [cause|chunks [cause|]]
  | unfold sendRegularMessage;
    destruct (chat (client t) (request b1)) as [cause|response] ].

(** What a turn does to the state: the configuration is kept, the user
    message is appended, and an assistant message follows it or not. *)
Lemma sendMessage_state (t : Turn) (message : string) (b : CohereChatbot) :
  config (snd (sendMessage t message b)) = config b /\
  (conversationHistory (snd (sendMessage t message b)) =
     (conversationHistory b ++ [userMessage t message])%list \/
   exists reply,
     conversationHistory (snd (sendMessage t message b)) =
     ((conversationHistory b ++ [userMessage t message]) ++ [assistantMessage t reply])%list).
Proof.
  turn_cases t message b; cbn; (split; [reflexivity|]);
    try (now left); right; eexists; reflexivity.
Qed.

Lemma sendMessage_systemOnlyFirst (t : Turn) (message : string) (b : CohereChatbot) :
  systemOnlyFirst (conversationHistory b) ->
  systemOnlyFirst (conversationHistory (snd (sendMessage t message b))).
Proof.
  intros H. destruct (sendMessage_state t message b) as [_ [E|[reply E]]]; rewrite E.
  - now apply systemOnlyFirst_push.
  - apply systemOnlyFirst_push; [|reflexivity]. now apply systemOnlyFirst_push.
Qed.

Lemma reachable_systemOnlyFirst (b : CohereChatbot) :
  reachable b -> systemOnlyFirst (conversationHistory b).
Proof.
  induction 1 as [cfg now|t message b _ IH|t userInput b _ IH|p now b _ IH
                 |now b _ IH|newConfig b _ IH|templateName b _ IH|b _ IH].
  - apply systemOnlyFirst_seed.
  - now apply sendMessage_systemOnlyFirst.
  - unfold sendTemplatedMessage. now apply sendMessage_systemOnlyFirst.
  - unfold systemOnlyFirst. cbn. apply filter_drops_system.
  - apply systemOnlyFirst_seed.
  - exact IH.
  - unfold setTemplate. destruct (getTemplate templateName); exact IH.
  - exact IH.
Qed.

Lemma count_nonsystem (h : list ChatMessage) :
  Forall (fun m => isSystem m = false) h -> count isSystem h = 0.
Proof.
  induction 1 as [|m h Hm _ IH]; cbn; [reflexivity|]. now rewrite Hm, IH.
Qed.

(** C5: in every state reachable through the public operations the history
    has at most one system message, and a system message is at index 0. *)
Theorem reachable_one_leading_system_message (b : CohereChatbot) :
  reachable b ->
  count isSystem (conversationHistory b) <= 1 /\
  forall (i : nat) (m : ChatMessage),
    nth_error (conversationHistory b) i = Some m -> role m = system -> i = 0.
Proof.
  intros Hr. apply reachable_systemOnlyFirst in Hr.
  unfold systemOnlyFirst in Hr.
  destruct (conversationHistory b) as [|m0 h]; cbn in *.
  - split; [lia|]. intros [|i] m Hm; [reflexivity|discriminate].
  - split.
    + rewrite (count_nonsystem h Hr). destruct (isSystem m0); lia.
    + intros [|i] m Hm Hrole; [reflexivity|]. cbn in Hm.
      apply nth_error_In in Hm.
      rewrite Forall_forall in Hr. apply list_elem_of_In in Hm.
      specialize (Hr m Hm). unfold isSystem in Hr. rewrite Hrole in Hr. discriminate.
Qed.

Lemma reachable_one_leading_system_message_witness :
  let b := snd (sendMessage
                  {| client := serviceReturning "Hello." []; sentAt := 2%Z; repliedAt := 3%Z |}
                  "Hi" (setPreamble "You are terse." 1%Z (constructor emptyConfig 0%Z))) in
  reachable b /\
  count isSystem (conversationHistory b) <= 1 /\
  forall (i : nat) (m : ChatMessage),
    nth_error (conversationHistory b) i = Some m -> role m = system -> i = 0.
Proof.
  cbv zeta.
  assert (reachable (snd (sendMessage
            {| client := serviceReturning "Hello." []; sentAt := 2%Z; repliedAt := 3%Z |}
            "Hi" (setPreamble "You are terse." 1%Z (constructor emptyConfig 0%Z))))) as Hr.
  { apply reach_sendMessage, reach_setPreamble, reach_constructor. }
  split; [exact Hr|].
  exact (reachable_one_leading_system_message _ Hr).
Defined.

(** C6: the payload built by formatMessagesForAPI has no system entry, it
    is the history with entries left out and the order kept, and exactly
    the user and assistant messages are in it.  This holds of every state,
    reachable or not. *)
Theorem formatMessagesForAPI_no_system_same_order (b : CohereChatbot) :
  Forall (fun m => api_role m <> system) (formatMessagesForAPI b) /\
  sublist (formatMessagesForAPI b) (List.map payload (conversationHistory b)) /\
  length (formatMessagesForAPI b) =
    count (fun m => negb (isSystem m)) (conversationHistory b).
Proof.
  destruct b as [c h]. unfold formatMessagesForAPI. cbn [conversationHistory].
  induction h as [|m h (IH1 & IH2 & IH3)]; cbn.
  - repeat split; constructor.
  - unfold isSystem at 1. destruct (Role_eqb (role m) system) eqn:E; cbn.
    + repeat split; [assumption|now constructor|assumption].
    + repeat split.
      * constructor; [|assumption]. cbn. intros Hs. rewrite Hs in E. discriminate.
      * now constructor.
      * now rewrite IH3.
Qed.

(** In a reachable state the payload is the whole history but for a
    leading system message. *)
Lemma reachable_formatMessagesForAPI (b : CohereChatbot) :
  reachable b ->
  formatMessagesForAPI b =
  List.map payload
    match conversationHistory b with
    | [] => []
    | m :: h => if isSystem m then h else m :: h
    end.
Proof.
  intros Hr. apply reachable_systemOnlyFirst in Hr.
  unfold systemOnlyFirst, formatMessagesForAPI in *.
  destruct (conversationHistory b) as [|m h]; [reflexivity|].
  cbn in *. rewrite (filter_keeps_nonsystem h Hr).
  unfold isSystem. destruct (Role_eqb (role m) system); reflexivity.
Qed.

(** Two calls of setPreamble with the same text leave what the second call
    alone would leave. *)
Lemma setPreamble_absorbs (p : string) (t1 t2 : Date) (b : CohereChatbot) :
  setPreamble p t2 (setPreamble p t1 b) = setPreamble p t2 b.
Proof.
  unfold setPreamble. cbn. f_equal. f_equal.
  apply filter_keeps_nonsystem, filter_drops_system.
Qed.

(** With the same clock reading the two states are the same. *)
Lemma setPreamble_idempotent_same_instant (p : string) (now : Date) (b : CohereChatbot) :
  setPreamble p now (setPreamble p now b) = setPreamble p now b.
Proof. apply setPreamble_absorbs. Qed.

(** C7: setPreamble is idempotent.  Calling it with a text and then again
    with the same text leaves the state that one call leaves: for any
    clock readings the two calls give exactly the state of the one call
    made at the later reading, with one reading the state after two calls
    is the state after one, and in every case the configuration and the
    roles and contents of the messages are those of the first call. *)
Theorem setPreamble_idempotent (p : string) (t1 t2 : Date) (b : CohereChatbot) :
  setPreamble p t2 (setPreamble p t1 b) = setPreamble p t2 b /\
  setPreamble p t1 (setPreamble p t1 b) = setPreamble p t1 b /\
  config (setPreamble p t2 (setPreamble p t1 b)) = config (setPreamble p t1 b) /\
  unstamped (conversationHistory (setPreamble p t2 (setPreamble p t1 b))) =
    unstamped (conversationHistory (setPreamble p t1 b)).
Proof.
  rewrite !setPreamble_absorbs. repeat split.
Qed.

(** The messages after the system message are the same, clock readings
    included, after one call and after two. *)
Lemma setPreamble_rest (p : string) (t1 t2 : Date) (b : CohereChatbot) :
  exists rest,
    conversationHistory (setPreamble p t1 b) = systemMessage p t1 :: rest /\
    conversationHistory (setPreamble p t2 (setPreamble p t1 b)) = systemMessage p t2 :: rest.
Proof.
  rewrite setPreamble_absorbs. unfold setPreamble. cbn.
  eexists. split; reflexivity.
Qed.

(** * Turns *)

(** C2: when the dispatch of a turn fails, sendMessage rejects with the
    one generic error, the user message of the turn stays at the end of
    the history and no assistant message follows it. *)
Theorem sendMessage_dispatch_failure (t : Turn) (message : string) (b : CohereChatbot) :
  dispatchFails (client t) (push b (userMessage t message)) = true ->
  fst (sendMessage t message b) = Rejected "Failed to get response from Cohere API" /\
  config (snd (sendMessage t message b)) = config b /\
  conversationHistory (snd (sendMessage t message b)) =
    (conversationHistory b ++ [userMessage t message])%list.
Proof.
  unfold dispatchFails.
  turn_cases t message b; intros H; try discriminate; repeat split.
Qed.

Lemma sendMessage_dispatch_failure_witness :
  let t := {| client := serviceDown; sentAt := 1%Z; repliedAt := 2%Z |} in
  let b := constructor emptyConfig 0%Z in
  dispatchFails (client t) (push b (userMessage t "Hi")) = true /\
  fst (sendMessage t "Hi" b) = Rejected "Failed to get response from Cohere API" /\
  config (snd (sendMessage t "Hi" b)) = config b /\
  conversationHistory (snd (sendMessage t "Hi" b)) =
    [ {| role := user; content := "Hi"; timestamp := Some 1%Z |} ].
Proof.
  cbv zeta. split; [reflexivity|].
  exact (sendMessage_dispatch_failure
           {| client := serviceDown; sentAt := 1%Z; repliedAt := 2%Z |}
           "Hi" (constructor emptyConfig 0%Z) eq_refl).
Defined.

(** A turn whose dispatch does not fail resolves and appends the reply. *)
Lemma sendMessage_dispatch_success (t : Turn) (message : string) (b : CohereChatbot) :
  dispatchFails (client t) (push b (userMessage t message)) = false ->
  exists reply,
    fst (sendMessage t message b) = Resolved reply /\
    conversationHistory (snd (sendMessage t message b)) =
      (conversationHistory b ++ [userMessage t message; assistantMessage t reply])%list.
Proof.
  unfold dispatchFails.
  turn_cases t message b; intros H; try discriminate;
    (eexists; split; [reflexivity|]; cbn; now rewrite <- app_assoc).
Qed.

(** A stream that breaks after a fragment: nothing is committed. *)
Example sendMessage_stream_breaks :
  let cl := {| chat := fun _ => ChatThrows "unused";
               chatStream := fun _ => StreamOpens [contentDelta "Hel"] (Some "ECONNRESET") |} in
  let t := {| client := cl; sentAt := 1%Z; repliedAt := 2%Z |} in
  let b := fromPreset creative 0%Z in
  let streaming :=
    updateConfig
      {| model := Absent; temperature := Absent; maxTokens := Absent; preamble := Absent;
         enableStreaming := Present (Some true); activeTemplate := Absent |} b in
  sendMessage t "Hi" streaming =
  (Rejected "Failed to get response from Cohere API",
   push streaming {| role := user; content := "Hi"; timestamp := Some 1%Z |}).
Proof. reflexivity. Qed.

(** ** Streaming *)

Lemma string_app_nil_r (s : string) : s ++ "" = s.
Proof. induction s as [|c s IH]; cbn; [reflexivity|now rewrite IH]. Qed.

Lemma string_app_assoc (s1 s2 s3 : string) : (s1 ++ s2) ++ s3 = s1 ++ s2 ++ s3.
Proof. induction s1 as [|c s1 IH]; cbn; [reflexivity|now rewrite IH]. Qed.

Lemma concat_cons (x : string) (xs : list string) :
  String.concat "" (x :: xs) = x ++ String.concat "" xs.
Proof.
  destruct xs as [|y xs]; cbn [String.concat].
  - now rewrite string_app_nil_r.
  - reflexivity.
Qed.

(** The loop over the stream, started with any text already accumulated. *)
Lemma fold_accumulate (chunks : list StreamChunk) (acc : string) :
  fold_left accumulate chunks acc = acc ++ String.concat "" (contentDeltaTexts chunks).
Proof.
  revert acc. induction chunks as [|c chunks IH]; intros acc.
  - cbn. now rewrite string_app_nil_r.
  - cbn [fold_left]. rewrite IH. unfold accumulate, contentDeltaTexts.
    cbn [List.filter]. destruct (String.eqb (type c) "content-delta").
    + cbn [List.map]. now rewrite concat_cons, string_app_assoc.
    + reflexivity.
Qed.

(** C9: on the streaming path, when the stream delivers its chunks and
    ends, the reply that is returned and committed as the assistant message
    is the concatenation, without separators, of the texts of the
    content-delta chunks in arrival order. *)
Theorem streaming_commits_concatenation
  (t : Turn) (message : string) (b : CohereChatbot) (chunks : list StreamChunk) :
  get (enableStreaming (config b)) = Some true ->
  chatStream (client t) (request (push b (userMessage t message))) = StreamOpens chunks None ->
  fst (sendMessage t message b) = Resolved (String.concat "" (contentDeltaTexts chunks)) /\
  conversationHistory (snd (sendMessage t message b)) =
    (conversationHistory b ++
     [userMessage t message;
      assistantMessage t (String.concat "" (contentDeltaTexts chunks))])%list.
Proof.
  intros Hs Hc. unfold sendMessage. cbv zeta. fold (userMessage t message).
  cbn [push config]. rewrite Hs. cbn [truthy truthy_boolean].
  unfold sendStreamingMessage. rewrite Hc. cbv zeta.
  rewrite fold_accumulate. cbn [String.append fst snd push conversationHistory].
  split; [reflexivity|]. now rewrite <- app_assoc.
Qed.

Lemma streaming_commits_concatenation_witness :
  let chunks := [contentDelta "Hel"; contentDelta "lo"] in
  let t := {| client := serviceReturning "unused" chunks; sentAt := 1%Z; repliedAt := 2%Z |} in
  let b :=
    constructor
      {| model := Absent; temperature := Absent; maxTokens := Absent; preamble := Absent;
         enableStreaming := Present (Some true); activeTemplate := Absent |} 0%Z in
  get (enableStreaming (config b)) = Some true /\
  chatStream (client t) (request (push b (userMessage t "Hi"))) = StreamOpens chunks None /\
  fst (sendMessage t "Hi" b) = Resolved "Hello" /\
  conversationHistory (snd (sendMessage t "Hi" b)) =
    [ {| role := user; content := "Hi"; timestamp := Some 1%Z |};
      {| role := assistant; content := "Hello"; timestamp := Some 2%Z |} ].
Proof.
  cbv zeta. split; [reflexivity|]. split; [reflexivity|].
  exact (streaming_commits_concatenation
           {| client := serviceReturning "unused" [contentDelta "Hel"; contentDelta "lo"];
              sentAt := 1%Z; repliedAt := 2%Z |}
           "Hi"
           (constructor
              {| model := Absent; temperature := Absent; maxTokens := Absent;
                 preamble := Absent; enableStreaming := Present (Some true);
                 activeTemplate := Absent |} 0%Z)
           [contentDelta "Hel"; contentDelta "lo"] eq_refl eq_refl).
Defined.

(** Chunks of other types, and content-delta chunks without a text, add
    nothing. *)
Example streaming_skips_other_chunks :
  String.concat ""
    (contentDeltaTexts
       [ {| type := "message-start"; delta := None |};
         contentDelta "Hel";
         {| type := "content-delta"; delta := None |};
         contentDelta "lo";
         {| type := "message-end"; delta := None |} ]) = "Hello".
Proof. reflexivity. Qed.

(** ** Templated turns *)

(** C4, as the code has it: setTemplate answers false for a name that is
    not registered and leaves the state as it is; a turn whose active
    template is not registered is not reported: sendTemplatedMessage does
    what sendMessage does on the untemplated input. *)
Theorem template_not_found (templateName : string) (t : Turn) (userInput : string)
  (b b' : CohereChatbot) :
  getTemplate templateName = None ->
  getActiveTemplate b' = Some templateName ->
  setTemplate templateName b = (false, b) /\
  sendTemplatedMessage t userInput b' = sendMessage t userInput b'.
Proof.
  intros Hn Ha. unfold setTemplate, sendTemplatedMessage, getActiveTemplate in *.
  rewrite Hn. split; [reflexivity|]. rewrite Ha, Hn.
  destruct (truthy_string templateName); reflexivity.
Qed.

Lemma template_not_found_witness :
  let t := {| client := serviceReturning "Hello." []; sentAt := 1%Z; repliedAt := 2%Z |} in
  let b := snd (setTemplate "code" (constructor emptyConfig 0%Z)) in
  let b' :=
    updateConfig
      {| model := Absent; temperature := Absent; maxTokens := Absent; preamble := Absent;
         enableStreaming := Absent; activeTemplate := Present (Some "nonexistent") |}
      (constructor emptyConfig 0%Z) in
  getTemplate "nonexistent" = None /\
  getActiveTemplate b' = Some "nonexistent" /\
  setTemplate "nonexistent" b = (false, b) /\
  sendTemplatedMessage t "Hi" b' = sendMessage t "Hi" b'.
Proof.
  cbv zeta. split; [reflexivity|]. split; [reflexivity|].
  exact (template_not_found "nonexistent"
           {| client := serviceReturning "Hello." []; sentAt := 1%Z; repliedAt := 2%Z |}
           "Hi"
           (snd (setTemplate "code" (constructor emptyConfig 0%Z)))
           (updateConfig
              {| model := Absent; temperature := Absent; maxTokens := Absent;
                 preamble := Absent; enableStreaming := Absent;
                 activeTemplate := Present (Some "nonexistent") |}
              (constructor emptyConfig 0%Z))
           eq_refl eq_refl).
Defined.

(** C4, as it is stated, fails: in a state reached through updateConfig
    the active template is "nonexistent", which is not registered, and the
    templated turn resolves with the reply of the service as an untemplated
    turn does; the caller is told nothing. *)
Lemma sendTemplatedMessage_missing_template_unreported :
  let t := {| client := serviceReturning "Hello." []; sentAt := 1%Z; repliedAt := 2%Z |} in
  let b :=
    updateConfig
      {| model := Absent; temperature := Absent; maxTokens := Absent; preamble := Absent;
         enableStreaming := Absent; activeTemplate := Present (Some "nonexistent") |}
      (constructor emptyConfig 0%Z) in
  reachable b /\
  getActiveTemplate b = Some "nonexistent" /\
  getTemplate "nonexistent" = None /\
  fst (sendTemplatedMessage t "Hi" b) = Resolved "Hello." /\
  (forall cause, fst (sendTemplatedMessage t "Hi" b) <> Rejected cause) /\
  sendTemplatedMessage t "Hi" b = sendMessage t "Hi" b.
Proof.
  cbv zeta. split; [apply reach_updateConfig, reach_constructor|].
  repeat split. intros cause. discriminate.
Qed.

(** A registered name is activated. *)
Lemma setTemplate_registered (templateName : string) (b : CohereChatbot) (tpl : PromptTemplate) :
  getTemplate templateName = Some tpl ->
  fst (setTemplate templateName b) = true /\
  getActiveTemplate (snd (setTemplate templateName b)) = Some templateName.
Proof. intros H. unfold setTemplate. rewrite H. split; reflexivity. Qed.

(** * Further properties of the turn *)

Lemma formatMessagesForAPI_push (b : CohereChatbot) (m : ChatMessage) :
  isSystem m = false ->
  formatMessagesForAPI (push b m) = (formatMessagesForAPI b ++ [payload m])%list.
Proof.
  intros Hm. unfold formatMessagesForAPI, push. cbn [conversationHistory].
  rewrite List.filter_app, List.map_app. cbn [List.filter].
  unfold isSystem in Hm. rewrite Hm. reflexivity.
Qed.

(** The request that sendMessage builds after it has appended the user
    message. *)
Lemma request_push (t : Turn) (message : string) (b : CohereChatbot) :
  request (push b (userMessage t message)) = turnRequest b message.
Proof.
  unfold request, turnRequest.
  rewrite formatMessagesForAPI_push by reflexivity. reflexivity.
Qed.



Lemma truthy_string_nonempty (s : string) : truthy_string s = true -> s <> "".
Proof.
  unfold truthy_string. intros H ->. discriminate.
Qed.

(** On the non-streaming path, when the service returns, the turn resolves
    with a reply that is never empty: the text of the first content item,
    or the placeholder when that text is missing or empty.  The reply is
    committed after the user message. *)
Theorem sendMessage_regular_reply
  (t : Turn) (message : string) (b : CohereChatbot) (response : ChatResponse) :
  truthy truthy_boolean (get (enableStreaming (config b))) = false ->
  chat (client t) (turnRequest b message) = ChatReturns response ->
  exists reply,
    fst (sendMessage t message b) = Resolved reply /\
    reply <> "" /\
    (firstText response = Some reply \/
     reply = "No response received" /\
     (firstText response = None \/ firstText response = Some "")) /\
    conversationHistory (snd (sendMessage t message b)) =
      (conversationHistory b ++ [userMessage t message; assistantMessage t reply])%list.
Proof.
  intros Hs Hc. unfold sendMessage. cbv zeta. fold (userMessage t message).
  cbn [push config]. rewrite Hs. unfold sendRegularMessage.
  rewrite request_push, Hc. cbv zeta.
  exists (or_else truthy_string (firstText response) "No response received").
  split; [reflexivity|].
  split; [|split].
  - unfold or_else. destruct (firstText response) as [s|]; [|discriminate].
    destruct (truthy_string s) eqn:E; [now apply truthy_string_nonempty|discriminate].
  - unfold or_else. destruct (firstText response) as [s|]; [|right; auto].
    destruct (truthy_string s) eqn:E; [now left|].
    right. split; [reflexivity|]. right. f_equal.
    unfold truthy_string in E. apply negb_false_iff, String.eqb_eq in E. exact E.
  - cbn. now rewrite <- app_assoc.
Qed.

Lemma sendMessage_regular_reply_witness :
  let silent :=
    {| chat := fun _ => ChatReturns {| message := Some {| items := Some [] |} |};
       chatStream := fun _ => StreamThrows "unused" |} in
  let t := {| client := silent; sentAt := 1%Z; repliedAt := 2%Z |} in
  let b := constructor emptyConfig 0%Z in
  truthy truthy_boolean (get (enableStreaming (config b))) = false /\
  chat (client t) (turnRequest b "Hi")
    = ChatReturns {| message := Some {| items := Some [] |} |} /\
  exists reply,
    fst (sendMessage t "Hi" b) = Resolved reply /\
    reply <> "" /\
    (firstText {| message := Some {| items := Some [] |} |} = Some reply \/
     reply = "No response received" /\
     (firstText {| message := Some {| items := Some [] |} |} = None \/
      firstText {| message := Some {| items := Some [] |} |} = Some "")) /\
    conversationHistory (snd (sendMessage t "Hi" b)) =
      (conversationHistory b ++ [userMessage t "Hi"; assistantMessage t reply])%list.
Proof.
  cbv zeta. split; [reflexivity|]. split; [reflexivity|].
  exact (sendMessage_regular_reply
           {| client :=
                {| chat := fun _ => ChatReturns {| message := Some {| items := Some [] |} |};
                   chatStream := fun _ => StreamThrows "unused" |};
              sentAt := 1%Z; repliedAt := 2%Z |}
           "Hi" (constructor emptyConfig 0%Z)
           {| message := Some {| items := Some [] |} |} eq_refl eq_refl).
Defined.

Lemma sendMessage_dispatch_success_witness :
  let t := {| client := serviceReturning "Hello." []; sentAt := 1%Z; repliedAt := 2%Z |} in
  let b := fromPreset creative 0%Z in
  dispatchFails (client t) (push b (userMessage t "Hi")) = false /\
  exists reply,
    fst (sendMessage t "Hi" b) = Resolved reply /\
    conversationHistory (snd (sendMessage t "Hi" b)) =
      (conversationHistory b ++ [userMessage t "Hi"; assistantMessage t reply])%list.
Proof.
  cbv zeta. split; [reflexivity|].
  exact (sendMessage_dispatch_success
           {| client := serviceReturning "Hello." []; sentAt := 1%Z; repliedAt := 2%Z |}
           "Hi" (fromPreset creative 0%Z) eq_refl).
Defined.

(** setPreamble changes nothing of what the next turn sends: the system
    message is left out of every request. *)
Theorem setPreamble_request_unchanged
  (p : string) (now : Date) (b : CohereChatbot) (message : string) :
  turnRequest (setPreamble p now b) message = turnRequest b message.
Proof.
  unfold turnRequest, formatMessagesForAPI, setPreamble.
  cbn [config conversationHistory model temperature maxTokens List.filter
       role systemMessage Role_eqb negb].
  rewrite (filter_keeps_nonsystem _ (filter_drops_system _)). reflexivity.
Qed.

(** After clearHistory the next turn sends the new message alone, whatever
    the conversation and the preamble were. *)
Theorem clearHistory_next_request (now : Date) (b : CohereChatbot) (message : string) :
  req_messages (turnRequest (clearHistory now b) message) =
  [ {| api_role := user; api_content := message |} ].
Proof.
  unfold turnRequest, formatMessagesForAPI, clearHistory, seed.
  cbn [req_messages conversationHistory config].
  destruct (get (preamble (config b))) as [p|]; [destruct (truthy_string p)|]; reflexivity.
Qed.

(** * Further properties of the configuration *)

Lemma spread_present {A} (base over : prop A) :
  base <> Absent -> spread base over <> Absent.
Proof. destruct over; [trivial|discriminate]. Qed.

Lemma reachable_keys (b : CohereChatbot) :
  reachable b -> defaultKeysPresent (config b).
Proof.
  unfold defaultKeysPresent.
  induction 1 as [cfg now|t message b _ IH|t userInput b _ IH|p now b _ IH
                 |now b _ IH|newConfig b _ IH|templateName b _ IH|b _ IH].
  - cbn. repeat split; apply spread_present; discriminate.
  - destruct (sendMessage_state t message b) as [-> _]. exact IH.
  - unfold sendTemplatedMessage.
    match goal with |- context [sendMessage t ?m b] =>
      destruct (sendMessage_state t m b) as [-> _] end.
    exact IH.
  - exact IH.
  - exact IH.
  - destruct IH as (H1 & H2 & H3 & H4). cbn.
    repeat split; now apply spread_present.
  - unfold setTemplate. destruct (getTemplate templateName); exact IH.
  - exact IH.
Qed.

(** No public operation removes a key from the configuration: the four
    keys that the constructor writes are present in every reachable state
    (their values may be undefined). *)
Theorem reachable_defaultKeysPresent (b : CohereChatbot) :
  reachable b -> defaultKeysPresent (config b).
Proof. apply reachable_keys. Qed.

Lemma reachable_defaultKeysPresent_witness :
  let b :=
    updateConfig
      {| model := Present None; temperature := Absent; maxTokens := Absent;
         preamble := Absent; enableStreaming := Absent; activeTemplate := Absent |}
      (clearTemplate (constructor emptyConfig 0%Z)) in
  reachable b /\ defaultKeysPresent (config b).
Proof.
  cbv zeta.
  assert (reachable
            (updateConfig
               {| model := Present None; temperature := Absent; maxTokens := Absent;
                  preamble := Absent; enableStreaming := Absent; activeTemplate := Absent |}
               (clearTemplate (constructor emptyConfig 0%Z)))) as Hr.
  { apply reach_updateConfig, reach_clearTemplate, reach_constructor. }
  split; [exact Hr|]. exact (reachable_defaultKeysPresent _ Hr).
Defined.

Lemma spreadConfig_defaults (c : ChatbotConfig) :
  defaultKeysPresent c -> spreadConfig defaults c = c.
Proof.
  destruct c as [m t x p e a]. unfold defaultKeysPresent, spreadConfig. cbn.
  intros (Hm & Ht & Hx & He).
  destruct m; [contradiction|]. destruct t; [contradiction|].
  destruct x; [contradiction|]. destruct e; [contradiction|].
  destruct p, a; reflexivity.
Qed.

(** clearHistory puts a reachable chatbot in the state of a chatbot newly
    constructed from its current configuration. *)
Theorem clearHistory_is_fresh (now : Date) (b : CohereChatbot) :
  reachable b -> clearHistory now b = constructor (config b) now.
Proof.
  intros Hr. apply reachable_keys in Hr.
  unfold clearHistory, constructor. cbv zeta.
  now rewrite (spreadConfig_defaults _ Hr).
Qed.

Lemma clearHistory_is_fresh_witness :
  let t := {| client := serviceReturning "Hello." []; sentAt := 2%Z; repliedAt := 3%Z |} in
  let b := snd (sendMessage t "Hi" (setPreamble "You are terse." 1%Z (constructor emptyConfig 0%Z))) in
  reachable b /\
  clearHistory 4%Z b = constructor (config b) 4%Z /\
  conversationHistory (clearHistory 4%Z b) = [systemMessage "You are terse." 4%Z].
Proof.
  cbv zeta.
  assert (reachable
            (snd (sendMessage
                    {| client := serviceReturning "Hello." []; sentAt := 2%Z; repliedAt := 3%Z |}
                    "Hi" (setPreamble "You are terse." 1%Z (constructor emptyConfig 0%Z))))) as Hr.
  { apply reach_sendMessage, reach_setPreamble, reach_constructor. }
  split; [exact Hr|]. split; [|reflexivity].
  exact (clearHistory_is_fresh 4%Z _ Hr).
Defined.

Lemma spread_assoc {A} (a b c : prop A) :
  spread (spread a b) c = spread a (spread b c).
Proof. destruct c; reflexivity. Qed.

(** Two updates in a row are one update with the second object spread over
    the first, and an update with the empty object changes nothing. *)
Theorem updateConfig_compose (c1 c2 : ChatbotConfig) (b : CohereChatbot) :
  updateConfig c2 (updateConfig c1 b) = updateConfig (spreadConfig c1 c2) b /\
  updateConfig emptyConfig b = b.
Proof.
  split.
  - unfold updateConfig, spreadConfig. cbn. now rewrite !spread_assoc.
  - destruct b as [[m t x p e a] h]. reflexivity.
Qed.

(** The object that getConfig returns is the configuration, and writing it
    back with updateConfig changes nothing. *)
Theorem updateConfig_getConfig (b : CohereChatbot) :
  getConfig b = config b /\ updateConfig (getConfig b) b = b.
Proof.
  destruct b as [[m t x p e a] h]. unfold getConfig, updateConfig, spreadConfig. cbn.
  split; destruct m, t, x, p, e, a; reflexivity.
Qed.

(** The streaming command answers the negation of the flag and stores it;
    used twice on a chatbot whose flag is a boolean, it gives the chatbot
    back. *)
Theorem toggleStreaming_twice (b : CohereChatbot) (v : bool) :
  get (enableStreaming (config b)) = Some v ->
  fst (toggleStreaming b) = negb v /\
  get (enableStreaming (config (snd (toggleStreaming b)))) = Some (negb v) /\
  conversationHistory (snd (toggleStreaming b)) = conversationHistory b /\
  snd (toggleStreaming (snd (toggleStreaming b))) = b.
Proof.
  destruct b as [[m t x p e a] h]. cbn [config enableStreaming].
  intros He. destruct e as [|[e|]]; try discriminate.
  injection He as ->.
  unfold toggleStreaming, getConfig, updateConfig, spreadConfig. cbn.
  repeat split; destruct v, m, t, x, p, a; reflexivity.
Qed.

Lemma toggleStreaming_twice_witness :
  let b := fromPreset balanced 0%Z in
  get (enableStreaming (config b)) = Some false /\
  fst (toggleStreaming b) = true /\
  get (enableStreaming (config (snd (toggleStreaming b)))) = Some true /\
  conversationHistory (snd (toggleStreaming b)) = conversationHistory b /\
  snd (toggleStreaming (snd (toggleStreaming b))) = b.
Proof.
  cbv zeta. split; [reflexivity|].
  exact (toggleStreaming_twice (fromPreset balanced 0%Z) false eq_refl).
Defined.

Open Scope Q_scope.


Close Scope Q_scope.

(** * Further properties of the templates *)

Lemma getTemplate_sound (n : string) (tpl : PromptTemplate) :
  getTemplate n = Some tpl -> In tpl promptTemplates /\ name tpl = n.
Proof.
  unfold getTemplate. intros H. apply find_some in H as [Hin Hn].
  split; [exact Hin|]. now apply String.eqb_eq.
Qed.

(** Lookup and registry agree: getTemplate finds a template exactly when it
    is registered under the requested name, so every registered template is
    found under its own name. *)
Theorem getTemplate_registered (n : string) (tpl : PromptTemplate) :
  getTemplate n = Some tpl <-> In tpl promptTemplates /\ name tpl = n.
Proof.
  split; [apply getTemplate_sound|].
  intros [Hin <-]. cbn in Hin.
  destruct Hin as [<-|[<-|[<-|[<-|[]]]]]; reflexivity.
Qed.

Lemma registered_name_truthy (n : string) (tpl : PromptTemplate) :
  getTemplate n = Some tpl -> truthy_string n = true.
Proof.
  intros H. apply getTemplate_sound in H as [Hin <-]. cbn in Hin.
  destruct Hin as [<-|[<-|[<-|[<-|[]]]]]; reflexivity.
Qed.

(** With a registered template active, sendTemplatedMessage is sendMessage
    on the rendered prompt: the prompt, not the raw input, is what is sent
    and what the history keeps. *)
Theorem sendTemplatedMessage_registered
  (t : Turn) (userInput n : string) (tpl : PromptTemplate) (b : CohereChatbot) :
  getActiveTemplate b = Some n ->
  getTemplate n = Some tpl ->
  sendTemplatedMessage t userInput b = sendMessage t (applyTemplate tpl userInput) b /\
  nth_error (conversationHistory (snd (sendTemplatedMessage t userInput b)))
            (length (conversationHistory b))
    = Some (userMessage t (applyTemplate tpl userInput)).
Proof.
  intros Ha Hn. unfold sendTemplatedMessage, getActiveTemplate in *.
  rewrite Ha, (registered_name_truthy n tpl Hn), Hn. split; [reflexivity|].
  destruct (sendMessage_state t (applyTemplate tpl userInput) b) as [_ [E|[reply E]]];
    rewrite E.
  - rewrite nth_error_app2 by lia. now rewrite Nat.sub_diag.
  - rewrite <- app_assoc. rewrite nth_error_app2 by lia. now rewrite Nat.sub_diag.
Qed.

Lemma sendTemplatedMessage_registered_witness :
  let t := {| client := serviceReturning "Use sort()." []; sentAt := 1%Z; repliedAt := 2%Z |} in
  let b := snd (setTemplate "qa" (constructor emptyConfig 0%Z)) in
  exists tpl,
    getActiveTemplate b = Some "qa" /\
    getTemplate "qa" = Some tpl /\
    sendTemplatedMessage t "Why?" b = sendMessage t (applyTemplate tpl "Why?") b /\
    nth_error (conversationHistory (snd (sendTemplatedMessage t "Why?" b)))
              (length (conversationHistory b))
      = Some (userMessage t (applyTemplate tpl "Why?")).
Proof.
  cbv zeta. eexists. split; [reflexivity|]. split; [reflexivity|].
  exact (sendTemplatedMessage_registered
           {| client := serviceReturning "Use sort()." []; sentAt := 1%Z; repliedAt := 2%Z |}
           "Why?" "qa" _ (snd (setTemplate "qa" (constructor emptyConfig 0%Z)))
           eq_refl eq_refl).
Defined.

(** setTemplate never activates a name that is not registered, and no
    operation other than the constructor and updateConfig writes the active
    template: an active template that is registered, or none, stays so. *)
Theorem activeRegistered_preserved
  (b : CohereChatbot) (templateName p message : string) (now : Date) (t : Turn) :
  activeRegistered b ->
  activeRegistered (snd (setTemplate templateName b)) /\
  activeRegistered (clearTemplate b) /\
  activeRegistered (setPreamble p now b) /\
  activeRegistered (clearHistory now b) /\
  activeRegistered (snd (sendMessage t message b)) /\
  activeRegistered (snd (sendTemplatedMessage t message b)).
Proof.
  intros H. unfold activeRegistered, getActiveTemplate in *.
  repeat split.
  - unfold setTemplate. destruct (getTemplate templateName) as [tpl|] eqn:E; cbn.
    + now exists tpl.
    + exact H.
  - exact H.
  - exact H.
  - destruct (sendMessage_state t message b) as [-> _]. exact H.
  - unfold sendTemplatedMessage.
    match goal with |- context [sendMessage t ?m b] =>
      destruct (sendMessage_state t m b) as [-> _] end.
    exact H.
Qed.

Lemma activeRegistered_preserved_witness :
  let t := {| client := serviceDown; sentAt := 1%Z; repliedAt := 2%Z |} in
  let b := snd (setTemplate "code" (fromPreset precise 0%Z)) in
  activeRegistered b /\
  activeRegistered (snd (setTemplate "nonexistent" b)) /\
  activeRegistered (clearTemplate b) /\
  activeRegistered (setPreamble "Be brief." 3%Z b) /\
  activeRegistered (clearHistory 3%Z b) /\
  activeRegistered (snd (sendMessage t "Hi" b)) /\
  activeRegistered (snd (sendTemplatedMessage t "Hi" b)).
Proof.
  cbv zeta.
  assert (activeRegistered (snd (setTemplate "code" (fromPreset precise 0%Z)))) as H.
  { eexists. reflexivity. }
  split; [exact H|].
  exact (activeRegistered_preserved _ "nonexistent" "Be brief." "Hi" 3%Z
           {| client := serviceDown; sentAt := 1%Z; repliedAt := 2%Z |} H).
Defined.

(** With the marker in the body and no dollar sign in the input,
    applyTemplate replaces the leftmost marker, and no other, by the
    input as it is. *)
Theorem applyTemplate_leftmost_marker
  (tpl : PromptTemplate) (userInput before after : string) :
  template tpl = before ++ marker ++ after ->
  includes userInput "$" = false ->
  exists before0 after0,
    template tpl = before0 ++ marker ++ after0 /\
    String.length before0 <= String.length before /\
    applyTemplate tpl userInput = before0 ++ userInput ++ after0.
Proof.
  intros Ht Hd.
  destruct (splitFirst marker (template tpl)) as [[before0 after0]|] eqn:Hs.
  - exists before0, after0.
    destruct (applyTemplate_plain_input tpl userInput before0 after0 Hs Hd) as [H0 Ha].
    split; [exact H0|]. split; [|exact Ha].
    exact (splitFirst_leftmost _ _ _ _ _ _ Hs Ht).
  - exfalso. exact (splitFirst_none _ _ Hs before after Ht).
Qed.

Lemma applyTemplate_leftmost_marker_witness :
  let tpl := {| name := "pair"; description := "Two markers";
                template := "A: {userInput} B: {userInput}" |} in
  template tpl = "A: {userInput} B: " ++ marker ++ "" /\
  includes "x < y" "$" = false /\
  exists before0 after0,
    template tpl = before0 ++ marker ++ after0 /\
    String.length before0 <= String.length "A: {userInput} B: " /\
    applyTemplate tpl "x < y" = before0 ++ "x < y" ++ after0.
Proof.
  cbv zeta. split; [reflexivity|]. split; [reflexivity|].
  exact (applyTemplate_leftmost_marker
           {| name := "pair"; description := "Two markers";
              template := "A: {userInput} B: {userInput}" |}
           "x < y" "A: {userInput} B: " "" eq_refl eq_refl).
Defined.

Example applyTemplate_second_marker_kept :
  applyTemplate {| name := "pair"; description := "Two markers";
                   template := "A: {userInput} B: {userInput}" |} "x < y"
  = "A: x < y B: {userInput}".
Proof. reflexivity. Qed.

Lemma applyTemplate_marker_absent_witness :
  let t := {| name := "fixed"; description := "No marker";
              template := "Tell me a joke." |} in
  includes (template t) marker = false /\
  applyTemplate t "sort an array" = "Tell me a joke.".
Proof.
  cbv zeta. split; [reflexivity|].
  exact (applyTemplate_marker_absent
           {| name := "fixed"; description := "No marker"; template := "Tell me a joke." |}
           "sort an array" eq_refl).
Defined.

Lemma includes_occurrence (before pat after : string) :
  includes (before ++ pat ++ after) pat = true.
Proof.
  unfold includes.
  destruct (splitFirst pat (before ++ pat ++ after)) as [[b0 a0]|] eqn:E; [reflexivity|].
  exfalso. exact (splitFirst_none _ _ E before after eq_refl).
Qed.

(** Every registered template has the marker, and on an input without a
    dollar sign applyTemplate puts the input in its place: the result
    contains the input and differs from the body only there. *)
Theorem registered_template_plain_input (tpl : PromptTemplate) (userInput : string) :
  In tpl promptTemplates ->
  includes userInput "$" = false ->
  includes (applyTemplate tpl userInput) userInput = true /\
  exists before after,
    template tpl = before ++ marker ++ after /\
    applyTemplate tpl userInput = before ++ userInput ++ after.
Proof.
  intros Hin Hd.
  assert (exists before after, splitFirst marker (template tpl) = Some (before, after))
    as (before & after & Hs).
  { cbn in Hin. destruct Hin as [<-|[<-|[<-|[<-|[]]]]]; do 2 eexists; vm_compute; reflexivity. }
  destruct (applyTemplate_plain_input tpl userInput before after Hs Hd) as [Ht Ha].
  split.
  - rewrite Ha. apply includes_occurrence.
  - exists before, after. now split.
Qed.

Lemma registered_template_plain_input_witness :
  exists tpl,
    In tpl promptTemplates /\ name tpl = "creative" /\
    includes "a haiku about rain" "$" = false /\
    includes (applyTemplate tpl "a haiku about rain") "a haiku about rain" = true /\
    exists before after,
      template tpl = before ++ marker ++ after /\
      applyTemplate tpl "a haiku about rain" = before ++ "a haiku about rain" ++ after.
Proof.
  exists (nth 2 promptTemplates {| name := ""; description := ""; template := "" |}).
  split; [cbn; auto|]. split; [reflexivity|]. split; [reflexivity|].
  refine (registered_template_plain_input _ "a haiku about rain" _ eq_refl).
  cbn; auto.
Defined.

Lemma getSubstitution_escapeDollars (matched before after s : string) :
  getSubstitution matched before after (escapeDollars s) = s.
Proof.
  induction s as [|c s IH]; [reflexivity|].
  cbn [escapeDollars]. destruct (Ascii.eqb c "$") eqn:E.
  - apply Ascii.eqb_eq in E. subst c. cbn. now rewrite IH.
  - cbn [getSubstitution]. rewrite E. now rewrite IH.
Qed.

(** Doubling every dollar sign of an input makes applyTemplate insert the
    input as it is, whatever it contains. *)
Theorem applyTemplate_escaped_input
  (tpl : PromptTemplate) (userInput before after : string) :
  splitFirst marker (template tpl) = Some (before, after) ->
  applyTemplate tpl (escapeDollars userInput) = before ++ userInput ++ after.
Proof.
  intros Hs. unfold applyTemplate, replace. rewrite Hs.
  now rewrite getSubstitution_escapeDollars.
Qed.

Lemma applyTemplate_escaped_input_witness :
  let tpl := {| name := "shell"; description := "Shell help";
                template := "Explain: {userInput}" |} in
  splitFirst marker (template tpl) = Some ("Explain: ", "") /\
  escapeDollars "echo $$ $&" = "echo $$$$ $$&" /\
  applyTemplate tpl (escapeDollars "echo $$ $&") = "Explain: " ++ "echo $$ $&" ++ "".
Proof.
  cbv zeta. split; [reflexivity|]. split; [reflexivity|].
  exact (applyTemplate_escaped_input
           {| name := "shell"; description := "Shell help"; template := "Explain: {userInput}" |}
           "echo $$ $&" "Explain: " "" eq_refl).
Defined.

(** A turn keeps the configuration and every earlier message; it adds the
    user message alone when the dispatch fails, and the user message and
    one assistant message when it does not. *)
Theorem sendMessage_extends_history (t : Turn) (message : string) (b : CohereChatbot) :
  let b' := snd (sendMessage t message b) in
  config b' = config b /\
  firstn (length (conversationHistory b)) (conversationHistory b') = conversationHistory b /\
  nth_error (conversationHistory b') (length (conversationHistory b))
    = Some (userMessage t message) /\
  length (conversationHistory b') =
    length (conversationHistory b) +
    (if dispatchFails (client t) (push b (userMessage t message)) then 1 else 2).
Proof.
  cbv zeta. unfold dispatchFails.
  turn_cases t message b; subst b1; cbn [snd config conversationHistory push];
    (split; [reflexivity|]);
    rewrite <- ?app_assoc;
    (split; [now rewrite firstn_app, Nat.sub_diag, firstn_all, app_nil_r|]);
    (split; [rewrite nth_error_app2 by lia; now rewrite Nat.sub_diag|]);
    rewrite length_app; reflexivity.
Qed.

(** * Seeding of the history *)

(** The constructor seeds the history from the caller's preamble alone: one
    system message when it is a non-empty string, nothing when it is
    missing, undefined or empty. *)
Theorem constructor_history (cfg : ChatbotConfig) (now : Date) :
  conversationHistory (constructor cfg now) =
  match get (preamble cfg) with
  | Some p => if String.eqb p "" then [] else [systemMessage p now]
  | None => []
  end.
Proof.
  unfold constructor, seed. cbn.
  destruct (preamble cfg) as [|[p|]]; cbn; try reflexivity.
  unfold truthy_string. destruct (String.eqb p ""); reflexivity.
Qed.

(** setPreamble always leaves a system message with the given text in
    front, also for the empty text; a clearHistory after it keeps that
    message, restamped, unless the text is empty, in which case nothing is
    left. *)
Theorem setPreamble_then_clearHistory (p : string) (t1 t2 : Date) (b : CohereChatbot) :
  nth_error (conversationHistory (setPreamble p t1 b)) 0 = Some (systemMessage p t1) /\
  get (preamble (config (setPreamble p t1 b))) = Some p /\
  conversationHistory (clearHistory t2 (setPreamble p t1 b)) =
    (if String.eqb p "" then [] else [systemMessage p t2]).
Proof.
  unfold clearHistory, setPreamble, seed. cbn. repeat split.
  unfold truthy_string. destruct (String.eqb p ""); reflexivity.
Qed.
